(** * bento_packer.py: packing and saving the iris classifier service

    The script imports the service class [IrisClassifier] and the trained
    model [clf] (plain module paths first, package-qualified paths in a bare
    [except:] handler), builds one service instance, packs the model into it
    under the name ['model'] and saves it, binding the returned location to
    [saved_path].

    Everything the script calls lives outside of it (the import system, the
    service class, BentoML's [pack] and [save]).  That outside is a
    [Platform]: a world state with the four operations the script uses.  The
    script is a computation in a state-and-exception monad over the module
    globals, the world and a log of the platform operations performed.

    The platform acts on the world only: it does not rebind the names of the
    script's own module, so a global reads back what the script last stored
    in it.  A method call is one platform operation (the attribute lookup
    together with the call).  The exception chaining that Python records
    when a handler raises ([__context__]) is left out: the exception that
    leaves the handler is the one the handler raised. *)

From stdpp Require Import gmap strings list.

(** ** Python values and exceptions *)

(** The objects the script handles are opaque to it; the only literal is the
    string ['model']. *)
Inductive value :=
| VNone
| VStr (s : string)
| VObj (id : nat).

(** A raised exception: its class name and message.  A bare [except:] catches
    every class, [BaseException] subclasses included. *)
Inductive exn :=
| Exception (cls msg : string).

Definition result (A : Type) : Type := exn + A.

(** ** The platform *)

Record Platform := {
  world : Type;
  (** [from m import n] *)
  import_from : string -> string -> world -> world * result value;
  (** [f(args)] *)
  call : value -> list value -> world -> world * result value;
  (** [o.meth(args)]: attribute lookup followed by the call *)
  call_method : value -> string -> list value -> world -> world * result value;
  (** does the path name an existing filesystem location? *)
  path_exists : world -> string -> bool
}.

(** ** The log of platform operations, each with its outcome *)

Inductive event :=
| EImport (module name : string) (out : result value)
| ECall (callee : value) (args : list value) (out : result value)
| EMethod (recv : value) (meth : string) (args : list value) (out : result value).

Definition outcome (ev : event) : result value :=
  match ev with
  | EImport _ _ out => out
  | ECall _ _ out => out
  | EMethod _ _ _ out => out
  end.

Definition raised (ev : event) : option exn :=
  match outcome ev with
  | inl e => Some e
  | inr _ => None
  end.

Definition is_import (ev : event) : bool :=
  match ev with
  | EImport _ _ _ => true
  | _ => false
  end.

Definition is_method (m : string) (ev : event) : bool :=
  match ev with
  | EMethod _ meth _ _ => bool_decide (meth = m)
  | _ => false
  end.

Definition is_save : event -> bool := is_method "save".

(** The module paths of the first attempt. *)
Definition is_plain_import (ev : event) : bool :=
  match ev with
  | EImport m _ _ => bool_decide (m = "bento_service") || bool_decide (m = "train")
  | _ => false
  end.

(** A save that returned: the framework persisted one artifact. *)
Definition is_persisted (ev : event) : bool :=
  match ev with
  | EMethod _ meth _ (inr _) => bool_decide (meth = "save")
  | _ => false
  end.

Section Script.
Context {P : Platform}.

(** ** Interpreter state and monad *)

Record state := State {
  globals : gmap string value;
  ext : world P;
  log : list event
}.

Definition M (A : Type) : Type := state -> state * result A.

Definition ret {A} (a : A) : M A := fun s => (s, inr a).

Definition raise {A} (e : exn) : M A := fun s => (s, inl e).

Definition bind {A B} (m : M A) (k : A -> M B) : M B :=
  fun s =>
    match m s with
    | (s1, inl e) => (s1, inl e)
    | (s1, inr a) => k a s1
    end.

(** [try: body / except: handler]: the handler runs in the state the body
    left behind and never sees the exception. *)
Definition try_except (body handler : M unit) : M unit :=
  fun s =>
    match body s with
    | (s1, inl _) => handler s1
    | (s1, inr tt) => (s1, inr tt)
    end.

Local Notation "'let!' x := m 'in' k" := (bind m (fun x => k))
  (at level 10, x name, m at level 100, k at level 200, only parsing).
Local Notation "m ;; k" := (bind m (fun _ => k))
  (at level 100, k at level 200, only parsing).

(** ** Primitive statements *)

Definition name_error (n : string) : exn :=
  Exception "NameError" ("name '" +:+ n +:+ "' is not defined").

Definition load_global (n : string) : M value :=
  fun s =>
    match globals s !! n with
    | Some v => ret v s
    | None => raise (name_error n) s
    end.

Definition store_global (n : string) (v : value) : M unit :=
  fun s => (State (<[n := v]> (globals s)) (ext s) (log s), inr tt).

(** Run a platform operation on the world and log it with its outcome. *)
Definition perform (op : world P -> world P * result value)
    (mk : result value -> event) : M value :=
  fun s =>
    let '(w, out) := op (ext s) in
    (State (globals s) w (log s ++ [mk out]), out).

(** [from m import n]: on success the name is bound in the globals. *)
Definition import_stmt (m n : string) : M unit :=
  let! v := perform (import_from P m n) (EImport m n) in
  store_global n v.

Definition call_fn (f : value) (args : list value) : M value :=
  perform (call P f args) (ECall f args).

Definition invoke (recv : value) (meth : string) (args : list value) : M value :=
  perform (call_method P recv meth args) (EMethod recv meth args).

(** ** The script *)

(** Lines 5-6. *)
Definition plain_imports : M unit :=
  import_stmt "bento_service" "IrisClassifier" ;;
  import_stmt "train" "clf".

(** Lines 8-9. *)
Definition package_imports : M unit :=
  import_stmt "bentoml_deploy.bento_service" "IrisClassifier" ;;
  import_stmt "bentoml_deploy.train" "clf".

(** Lines 4-9. *)
Definition import_block : M unit :=
  try_except plain_imports package_imports.

(** Lines 12-18. *)
Definition pack_and_save : M unit :=
  let! cls := load_global "IrisClassifier" in
  let! inst := call_fn cls [] in
  store_global "iris_classifier_service" inst ;;
  let! svc := load_global "iris_classifier_service" in
  let! model := load_global "clf" in
  invoke svc "pack" [VStr "model"; model] ;;
  let! svc' := load_global "iris_classifier_service" in
  let! path := invoke svc' "save" [] in
  store_global "saved_path" path.

Definition bento_packer : M unit :=
  import_block ;;
  pack_and_save.

(** A run of the script: module globals [g], world [w], empty log. *)
Definition run (g : gmap string value) (w : world P) : state * result unit :=
  bento_packer (State g w []).

End Script.

Arguments state : clear implicits.
Arguments M : clear implicits.
Arguments run : clear implicits.

(** ** Properties of runs *)

(** Both names resolved by one attempt: the class from module [mc] in world
    [w], then the model from module [mm], leaving the world of [s']. *)
Definition resolved_from {P : Platform} (mc mm : string) (w : world P)
    (s' : state P) : Prop :=
  ∃ w1 cls model,
    import_from P mc "IrisClassifier" w = (w1, inr cls) ∧
    import_from P mm "clf" w1 = (ext s', inr model) ∧
    globals s' !! "IrisClassifier" = Some cls ∧
    globals s' !! "clf" = Some model.

(** Artifacts persisted during a run: the [save] calls that returned. *)
Definition persisted_artifacts (l : list event) : nat :=
  length (List.filter is_persisted l).

(** The recorded path is a non-empty string naming an existing location in
    the final world. *)
Definition path_reported {P : Platform} (s' : state P) : Prop :=
  ∃ p, globals s' !! "saved_path" = Some (VStr p) ∧
       p ≠ "" ∧ path_exists P (ext s') p = true.

(** The property of a run from globals [g] and world [w]: if nothing raises,
    one artifact is persisted and its path is reported. *)
Definition artifact_reported (P : Platform) g (w : world P) : Prop :=
  ∀ s', run P g w = (s', inr tt) →
    persisted_artifacts (log s') = 1 ∧ path_reported s'.

(** What the script leaves to the framework: a [save] that returns, returns
    a non-empty string naming a location that exists once it has returned. *)
Definition save_contract (P : Platform) : Prop :=
  ∀ inst w w' v,
    call_method P inst "save" [] w = (w', inr v) →
    ∃ p, v = VStr p ∧ p ≠ "" ∧ path_exists P w' p = true.

(** The value delivered by an import of the name [n] that succeeded. *)
Definition imported (n : string) (ev : event) : option value :=
  match ev with
  | EImport _ name (inr v) => if bool_decide (name = n) then Some v else None
  | _ => None
  end.

(** The value of the last import of [n] that succeeded, if any. *)
Fixpoint last_import (n : string) (l : list event) : option value :=
  match l with
  | [] => None
  | ev :: l' =>
      match last_import n l' with
      | Some v => Some v
      | None => imported n ev
      end
  end.

(** The module paths of the imports in a log, in order. *)
Definition import_modules (l : list event) : list string :=
  omap (fun ev => match ev with EImport m _ _ => Some m | _ => None end) l.

(** The names the script binds in its module. *)
Definition script_names : list string :=
  ["IrisClassifier"; "clf"; "iris_classifier_service"; "saved_path"].

#[global] Instance value_eq_dec : EqDecision value.
Proof. solve_decision. Defined.

#[global] Instance exn_eq_dec : EqDecision exn.
Proof. solve_decision. Defined.



(** ** Concrete platforms

    A small family of platforms for running the script: [mods] lists what
    the import system can deliver, the class is [VObj 1] and its instances
    are [VObj 3]; [packed] and [saved] are what [pack] and [save] do, and
    [created] the paths that [save] creates.  The world is the list of
    existing paths. *)

Definition find_module (mods : list (string * string * value)) (m n : string)
    : option value :=
  snd <$> List.find (fun x => bool_decide (x.1 = (m, n))) mods.

Definition toy (mods : list (string * string * value))
    (packed saved : result value) (created : list string) : Platform := {|
  world := list string;
  import_from m n w :=
    match find_module mods m n with
    | Some v => (w, inr v)
    | None => (w, inl (Exception "ModuleNotFoundError" m))
    end;
  call f args w :=
    match f, args with
    | VObj 1, [] => (w, inr (VObj 3))
    | _, _ => (w, inl (Exception "TypeError" "not callable"))
    end;
  call_method recv meth args w :=
    if bool_decide (meth = "pack") then (w, packed)
    else if bool_decide (meth = "save") then (created ++ w, saved)
    else (w, inl (Exception "AttributeError" meth));
  path_exists w p := bool_decide (p ∈ w)
|}.

Definition plain_layout : list (string * string * value) :=
  [("bento_service", "IrisClassifier", VObj 1); ("train", "clf", VObj 2)].

Definition package_layout : list (string * string * value) :=
  [("bentoml_deploy.bento_service", "IrisClassifier", VObj 1);
   ("bentoml_deploy.train", "clf", VObj 2)].

(** [train] is missing from the plain paths, the package is complete; the
    plain class object differs from the packaged one. *)
Definition mixed_layout : list (string * string * value) :=
  [("bento_service", "IrisClassifier", VObj 7);
   ("bentoml_deploy.bento_service", "IrisClassifier", VObj 1);
   ("bentoml_deploy.train", "clf", VObj 2)].

Definition bundle : string := "/root/bentoml/repository/IrisClassifier/v1".

(** BentoML as the script expects it: [pack] returns the service, [save]
    writes the bundle and returns its path. *)
Definition bentoml (mods : list (string * string * value)) : Platform :=
  toy mods (inr (VObj 3)) (inr (VStr bundle)) [bundle].

(** A service class whose [save] writes nothing and returns the empty
    string. *)
Definition hollow : Platform :=
  toy plain_layout (inr VNone) (inr (VStr "")) [].

Definition disk_error : exn := Exception "OSError" "No space left on device".
Definition bad_model : exn := Exception "TypeError" "unsupported model".

Definition no_bento_service : exn :=
  Exception "ModuleNotFoundError" "bento_service".

(** [save] runs out of disk space. *)
Definition full_disk : Platform :=
  toy plain_layout (inr (VObj 3)) (inl disk_error) [].

(** [pack] rejects the model. *)
Definition picky : Platform :=
  toy plain_layout (inl bad_model) (inr (VStr bundle)) [bundle].

(** ** Unfolding a run

    The script is straight-line code around one handler: a run is settled by
    the outcomes of at most seven platform operations. *)

Ltac unfold_script :=
  unfold run, bento_packer, import_block, try_except, plain_imports,
    package_imports, pack_and_save, import_stmt, call_fn, invoke, perform,
    bind, store_global, load_global, ret, raise in *;
  simpl in *.

(** Reading a global back from the bindings made so far. *)
Ltac read_globals :=
  repeat (first
    [ rewrite lookup_insert_eq
    | rewrite lookup_insert_ne by discriminate ]; simpl).

Ltac step_platform :=
  match goal with
  | |- context [import_from ?P ?m ?n ?w] =>
      destruct (import_from P m n w) as [? [?|?]] eqn:?
  | |- context [call ?P ?f ?a ?w] =>
      destruct (call P f a w) as [? [?|?]] eqn:?
  | |- context [call_method ?P ?r ?m ?a ?w] =>
      destruct (call_method P r m a w) as [? [?|?]] eqn:?
  end; simpl; read_globals.

Ltac run_cases := unfold_script; repeat step_platform.

(** The same for a statement that mentions the run several times: name its
    final state and outcome first. *)
Ltac run_cases_of P g w :=
  let Hrun := fresh "Hrun" in
  destruct (run P g w) as [? ?] eqn:Hrun; simpl; revert Hrun;
  run_cases; intros [= <- <-]; simpl.

(** Membership in an explicit log, as a disjunction of equations. *)
Ltac split_mem H :=
  repeat (apply elem_of_cons in H as [H|H]); try (apply elem_of_nil in H; destruct H).

(** Find an entry in an explicit log. *)
Ltac find_mem :=
  solve [repeat first [apply list_elem_of_here | apply list_elem_of_further]].

(** Some entry of an explicit log, to be settled by what follows. *)
Ltac some_mem :=
  apply list_elem_of_here + (apply list_elem_of_further; some_mem).

(** ** Equations of the statements *)

Section Equations.
Context {P : Platform}.
Implicit Types s : state P.

Lemma import_stmt_ok m n s w v :
  import_from P m n (ext s) = (w, inr v) →
  import_stmt m n s =
    (State (<[n := v]> (globals s)) w (log s ++ [EImport m n (inr v)]), inr tt).
Proof. intros H. unfold import_stmt, perform, bind, store_global. by rewrite H. Qed.

Lemma import_stmt_err m n s w e :
  import_from P m n (ext s) = (w, inl e) →
  import_stmt m n s =
    (State (globals s) w (log s ++ [EImport m n (inl e)]), inl e).
Proof. intros H. unfold import_stmt, perform, bind. by rewrite H. Qed.

Lemma try_except_caught body handler s s1 e :
  body s = (s1, inl e) → try_except body handler s = handler s1.
Proof. intros H. unfold try_except. by rewrite H. Qed.

Lemma try_except_passed body handler s s1 :
  body s = (s1, inr tt) → try_except body handler s = (s1, inr tt).
Proof. intros H. unfold try_except. by rewrite H. Qed.

(** A statement only ever extends the log. *)
Lemma import_stmt_log m n s :
  ∃ out, log (import_stmt m n s).1 = log s ++ [EImport m n out].
Proof.
  destruct (import_from P m n (ext s)) as [w [e|v]] eqn:H.
  - rewrite (import_stmt_err _ _ _ _ _ H). by exists (inl e).
  - rewrite (import_stmt_ok _ _ _ _ _ H). by exists (inr v).
Qed.

End Equations.

(** ** The import block *)

(** C2: whenever the plain imports raise, whatever the exception, the import
    block continues as the package-qualified imports from the state the
    failure left, and the first thing they do is attempt
    [from bentoml_deploy.bento_service import IrisClassifier]. *)
Theorem fallback_unconditional (P : Platform) (s s1 : state P) (e : exn) :
  plain_imports s = (s1, inl e) →
  import_block s = package_imports s1 ∧
  ∃ out,
    (log s1 ++ [EImport "bentoml_deploy.bento_service" "IrisClassifier" out])
      `prefix_of` log (import_block s).1.
Proof.
  intros Hplain. unfold import_block.
  rewrite (try_except_caught _ _ _ _ _ Hplain). split; [done|].
  unfold package_imports, bind.
  destruct (import_from P "bentoml_deploy.bento_service" "IrisClassifier" (ext s1))
    as [w [e1|cls]] eqn:Hcls.
  - rewrite (import_stmt_err _ _ _ _ _ Hcls). by exists (inl e1).
  - rewrite (import_stmt_ok _ _ _ _ _ Hcls).
    match goal with |- context [import_stmt ?m ?n ?s2] =>
      destruct (import_stmt_log m n s2) as [out2 Hlog] end.
    exists (inr cls). rewrite Hlog. simpl. by eexists.
Qed.

(** C9: past the import block, the class and the model come from the same
    attempt: both from the plain paths, which raised nothing, or, after any
    failure of the plain attempt (also one that had already bound the class),
    both from the package-qualified paths. *)
Theorem imports_resolved_as_pair (P : Platform) (s s' : state P) :
  import_block s = (s', inr tt) →
  (plain_imports s = (s', inr tt) ∧
   resolved_from "bento_service" "train" (ext s) s') ∨
  (∃ s1 e, plain_imports s = (s1, inl e) ∧
   resolved_from "bentoml_deploy.bento_service" "bentoml_deploy.train" (ext s1) s').
Proof.
  unfold import_block, try_except.
  destruct (plain_imports s) as [s1 [e|[]]] eqn:Hplain.
  - intros Hpkg. right. exists s1, e. split; [done|].
    revert Hpkg. unfold package_imports, bind.
    destruct (import_from P "bentoml_deploy.bento_service" "IrisClassifier" (ext s1))
      as [w1 [e1|cls]] eqn:Hcls.
    { by rewrite (import_stmt_err _ _ _ _ _ Hcls). }
    rewrite (import_stmt_ok _ _ _ _ _ Hcls).
    destruct (import_from P "bentoml_deploy.train" "clf" w1) as [w2 [e2|model]] eqn:Hclf.
    { by rewrite (import_stmt_err _ _ _ w2 e2). }
    rewrite (import_stmt_ok _ _ _ w2 model); [|done].
    intros [= <-]. exists w1, cls, model. simpl. by simplify_map_eq.
  - intros [= <-]. left. split; [done|].
    revert Hplain. unfold plain_imports, bind.
    destruct (import_from P "bento_service" "IrisClassifier" (ext s))
      as [w1 [e1|cls]] eqn:Hcls.
    { by rewrite (import_stmt_err _ _ _ _ _ Hcls). }
    rewrite (import_stmt_ok _ _ _ _ _ Hcls).
    destruct (import_from P "train" "clf" w1) as [w2 [e2|model]] eqn:Hclf.
    { by rewrite (import_stmt_err _ _ _ w2 e2). }
    rewrite (import_stmt_ok _ _ _ w2 model); [|done].
    intros [= <-]. exists w1, cls, model. simpl. by simplify_map_eq.
Qed.

(** ** Failures *)

(** C3: in any run, an operation that raises and is not one of the plain
    imports (so: a package-qualified import, the construction, pack or save)
    is the last thing the script does, and its exception is the outcome of
    the run. *)
Theorem later_failures_propagate (P : Platform) g w (s' : state P) r ev e :
  run P g w = (s', r) →
  ev ∈ log s' → raised ev = Some e → is_plain_import ev = false →
  r = inl e ∧ last (log s') = Some ev.
Proof.
  run_cases; intros [= <- <-]; simpl; intros Hin Hr Hp.
  all: split_mem Hin; subst ev; cbv [raised outcome] in Hr; simpl in *;
    try discriminate.
  all: split; congruence.
Qed.

(** ** The successful path *)

(** C4: the log of a successful run is the imports followed by exactly three
    operations: the construction, [pack] on the instance it returned, and
    [save] on that same instance. *)
Theorem construct_pack_save (P : Platform) g w (s' : state P) :
  run P g w = (s', inr tt) →
  ∃ imports cls inst model packed path,
    log s' = imports ++
      [ECall cls [] (inr inst);
       EMethod inst "pack" [VStr "model"; model] (inr packed);
       EMethod inst "save" [] (inr path)] ∧
    forallb is_import imports = true.
Proof.
  run_cases; intros [= <-]; simpl.
  - eexists [_; _; _], _, _, _, _, _. by split.
  - eexists [_; _; _; _], _, _, _, _, _. by split.
  - eexists [_; _], _, _, _, _, _. by split.
Qed.

(** C5: every [pack] the script performs has the two arguments ['model'] and
    the model object, which is the value of the global [clf] and was
    delivered by the one import of [clf] that succeeded. *)
Theorem pack_model_slot (P : Platform) g w recv args out :
  EMethod recv "pack" args out ∈ log (run P g w).1 →
  ∃ model m,
    args = [VStr "model"; model] ∧
    globals (run P g w).1 !! "clf" = Some model ∧
    EImport m "clf" (inr model) ∈ log (run P g w).1 ∧
    ∀ m' v', EImport m' "clf" (inr v') ∈ log (run P g w).1 → m' = m ∧ v' = model.
Proof.
  run_cases_of P g w; intros Hin; split_mem Hin; try discriminate.
  all: injection Hin as -> -> ->.
  all: eexists _, _; split; [reflexivity|]; split; [by simplify_map_eq|].
  all: split; [find_mem|].
  all: intros m' v' Hin'; split_mem Hin'; try discriminate.
  all: by injection Hin' as -> ->.
Qed.

(** C6: at the end of a successful run the global [saved_path] holds the
    value that the closing [save] call returned. *)
Theorem saved_path_recorded (P : Platform) g w (s' : state P) :
  run P g w = (s', inr tt) →
  ∃ inst path w0,
    last (log s') = Some (EMethod inst "save" [] (inr path)) ∧
    call_method P inst "save" [] w0 = (ext s', inr path) ∧
    globals s' !! "saved_path" = Some path.
Proof.
  run_cases; intros [= <-]; simpl.
  all: eexists _, _, _; split; [reflexivity|]; split; [eassumption|].
  all: by simplify_map_eq.
Qed.

(** C7: every [save] the script performs has an empty argument list, and its
    outcome is what the platform's [save] makes of the world it is run in. *)
Theorem save_takes_no_arguments (P : Platform) g w recv args out :
  EMethod recv "save" args out ∈ log (run P g w).1 →
  args = [] ∧
  ∃ w0, call_method P recv "save" [] w0 = (ext (run P g w).1, out).
Proof.
  run_cases_of P g w; intros Hin; split_mem Hin; try discriminate.
  all: injection Hin as -> -> ->; split; [reflexivity|]; by eexists.
Qed.

(** C8: in any run the log holds no [save] at all, or it ends with the one
    [save] and holds none before it. *)
Theorem save_at_most_once (P : Platform) g w :
  List.filter is_save (log (run P g w).1) = [] ∨
  ∃ before ev,
    log (run P g w).1 = before ++ [ev] ∧
    is_save ev = true ∧
    List.filter is_save before = [].
Proof.
  run_cases_of P g w; try (left; reflexivity); right.
  - by eexists [_; _; _; _; _], _.
  - by eexists [_; _; _; _; _], _.
  - by eexists [_; _; _; _; _; _], _.
  - by eexists [_; _; _; _; _; _], _.
  - by eexists [_; _; _; _], _.
  - by eexists [_; _; _; _], _.
Qed.

(** C10: once a [save] has returned, with whatever value, the run is over:
    that call is the last entry of the log, the world is the one it left,
    the value is bound to [saved_path], and the run ends normally. *)
Theorem nothing_after_save (P : Platform) g w recv args v :
  EMethod recv "save" args (inr v) ∈ log (run P g w).1 →
  (run P g w).2 = inr tt ∧
  last (log (run P g w).1) = Some (EMethod recv "save" args (inr v)) ∧
  globals (run P g w).1 !! "saved_path" = Some v ∧
  ∃ w0, call_method P recv "save" args w0 = (ext (run P g w).1, inr v).
Proof.
  run_cases_of P g w; intros Hin; split_mem Hin; try discriminate.
  all: injection Hin as -> -> ->.
  all: split; [reflexivity|]; split; [reflexivity|].
  all: split; [by simplify_map_eq|by eexists].
Qed.

(** ** The saved artifact *)

Lemma bentoml_save_contract mods : save_contract (bentoml mods).
Proof.
  intros inst w w' v [= <- <-]. exists bundle.
  split; [done|]. split; [done|].
  apply bool_decide_eq_true. apply list_elem_of_here.
Qed.

(** C1, as stated, fails for a service class whose [save] raises nothing,
    writes nothing and returns the empty string: the run ends normally with
    [saved_path] bound to the empty string. *)
Lemma hollow_save_not_reported : ¬ artifact_reported hollow ∅ [].
Proof.
  intros H.
  assert (Hrun : run hollow ∅ [] = ((run hollow ∅ []).1, inr tt))
    by (vm_compute; reflexivity).
  destruct (H _ Hrun) as [_ (p & Hp & Hne & _)].
  vm_compute in Hp. injection Hp as <-. by apply Hne.
Qed.

(** C1, amended: when the framework's [save] keeps its contract, a run in
    which nothing raises performs exactly one save that returns, and
    [saved_path] holds its path: a non-empty string naming a location that
    exists in the world the run ends in, which is the world [save] left. *)
Theorem artifact_reported_under_contract (P : Platform) g w (s' : state P) :
  save_contract P →
  run P g w = (s', inr tt) →
  persisted_artifacts (log s') = 1 ∧ path_reported s'.
Proof.
  intros Hsave. run_cases; intros [= <-]; simpl.
  all: split; [reflexivity|].
  all: match goal with
       | H : call_method _ _ "save" [] _ = _ |- _ =>
           destruct (Hsave _ _ _ _ H) as (p & -> & Hne & Hex)
       end.
  all: exists p; split; [by simplify_map_eq|done].
Qed.

(** ** Further properties of a run *)

(** X1: every construction the script performs has no arguments, and its
    callee is the class delivered by the last import of [IrisClassifier]
    that succeeded. *)
Theorem constructs_imported_class (P : Platform) g w f args out :
  ECall f args out ∈ log (run P g w).1 →
  args = [] ∧ last_import "IrisClassifier" (log (run P g w).1) = Some f.
Proof.
  run_cases_of P g w; intros Hin; split_mem Hin; try discriminate.
  all: by injection Hin as -> -> ->.
Qed.


(** X3: the package-qualified paths are tried exactly when a plain import
    raised. *)
Theorem fallback_exactly_on_failure (P : Platform) g w :
  (∃ ev, ev ∈ log (run P g w).1 ∧ is_plain_import ev = true ∧ raised ev ≠ None) ↔
  (∃ out, EImport "bentoml_deploy.bento_service" "IrisClassifier" out
            ∈ log (run P g w).1).
Proof.
  run_cases_of P g w; split.
  all: try (intros _; eexists; find_mem).
  all: try (intros _; eexists; (split; [some_mem|]); by split).
  all: try (intros (ev & Hin & Hp & Hr); split_mem Hin; subst ev;
            cbv [raised outcome] in Hr; simpl in Hp; congruence).
  all: intros (o & Hin); split_mem Hin; discriminate.
Qed.

(** X4: the script binds four names and no other: every other global of the
    module is at the end what it was at the start, however the run ends. *)
Theorem other_globals_untouched (P : Platform) g w n :
  n ∉ script_names →
  globals (run P g w).1 !! n = g !! n.
Proof.
  intros Hn. unfold script_names in Hn.
  repeat (apply not_elem_of_cons in Hn as [? Hn]).
  run_cases_of P g w.
  all: by rewrite ?lookup_insert_ne by done.
Qed.

(** X5: a run that raises leaves [saved_path] as it found it: the name is
    bound only by a [save] that returned. *)
Theorem saved_path_unbound_on_failure (P : Platform) g w e :
  (run P g w).2 = inl e →
  globals (run P g w).1 !! "saved_path" = g !! "saved_path".
Proof.
  run_cases_of P g w; intros Hr; try discriminate Hr.
  all: by rewrite ?lookup_insert_ne by done.
Qed.

(** X6: the exception that ends a run is always the one raised by the last
    operation performed: the script raises nothing of its own, in particular
    no [NameError] for a name it uses, whatever the module's globals were. *)
Theorem failure_comes_from_last_operation (P : Platform) g w e :
  (run P g w).2 = inl e →
  ∃ ev, last (log (run P g w).1) = Some ev ∧ raised ev = Some e.
Proof.
  run_cases_of P g w; intros [= <-].
  all: by eexists.
Qed.

(** X7: a run ends normally exactly when the last operation it performed is
    a [save] that returned. *)
Theorem success_iff_save_returned (P : Platform) g w :
  (run P g w).2 = inr tt ↔
  ∃ ev, last (log (run P g w).1) = Some ev ∧ is_persisted ev = true.
Proof.
  run_cases_of P g w; split.
  all: try (intros _; by eexists).
  all: try (intros [=]).
  all: by intros (ev & [= <-] & Hp).
Qed.

(** X8: a run performs at most seven operations and imports no module path
    twice. *)
Theorem operations_bounded (P : Platform) g w :
  length (log (run P g w).1) ≤ 7 ∧
  NoDup (import_modules (log (run P g w).1)).
Proof.
  run_cases_of P g w.
  all: split; [lia|].
  all: apply (bool_decide_unpack _); vm_compute; exact I.
Qed.


(** X10: every method the script calls is [pack] or [save], and its receiver
    is the instance that the construction returned. *)
Theorem methods_on_constructed_instance (P : Platform) g w recv meth args out :
  EMethod recv meth args out ∈ log (run P g w).1 →
  (meth = "pack" ∨ meth = "save") ∧
  ∃ cls, ECall cls [] (inr recv) ∈ log (run P g w).1.
Proof.
  run_cases_of P g w; intros Hin; split_mem Hin; try discriminate.
  all: injection Hin as -> -> -> ->.
  all: split; [by (left + right)|eexists; find_mem].
Qed.


(** ** Runs on the concrete platforms *)

(** Run as a script, next to [bento_service.py] and [train.py]. *)
Example run_as_script :
  log (run (bentoml plain_layout) ∅ []).1 =
    [EImport "bento_service" "IrisClassifier" (inr (VObj 1));
     EImport "train" "clf" (inr (VObj 2));
     ECall (VObj 1) [] (inr (VObj 3));
     EMethod (VObj 3) "pack" [VStr "model"; VObj 2] (inr (VObj 3));
     EMethod (VObj 3) "save" [] (inr (VStr bundle))].
Proof. vm_compute; reflexivity. Qed.

(** Run from the installed package: the plain import fails first. *)
Example run_as_package :
  log (run (bentoml package_layout) ∅ []).1 =
    [EImport "bento_service" "IrisClassifier" (inl no_bento_service);
     EImport "bentoml_deploy.bento_service" "IrisClassifier" (inr (VObj 1));
     EImport "bentoml_deploy.train" "clf" (inr (VObj 2));
     ECall (VObj 1) [] (inr (VObj 3));
     EMethod (VObj 3) "pack" [VStr "model"; VObj 2] (inr (VObj 3));
     EMethod (VObj 3) "save" [] (inr (VStr bundle))].
Proof. vm_compute; reflexivity. Qed.

(** Nothing importable: the exception of the package-qualified import is the
    one that leaves the script. *)
Example run_without_modules :
  (run (bentoml []) ∅ []).2 =
    inl (Exception "ModuleNotFoundError" "bentoml_deploy.bento_service").
Proof. vm_compute; reflexivity. Qed.

(** [pack] raises: no [save] follows and no path is recorded. *)
Example run_with_rejected_model :
  (run picky ∅ []).2 = inl bad_model ∧
  List.filter is_save (log (run picky ∅ []).1) = [] ∧
  globals (run picky ∅ []).1 !! "saved_path" = None.
Proof. vm_compute. by repeat split. Qed.

Lemma artifact_reported_under_contract_witness :
  save_contract (bentoml plain_layout) ∧
  persisted_artifacts (log (run (bentoml plain_layout) ∅ []).1) = 1 ∧
  path_reported (run (bentoml plain_layout) ∅ []).1.
Proof.
  split; [apply bentoml_save_contract|].
  apply (artifact_reported_under_contract (bentoml plain_layout) ∅ []).
  - apply bentoml_save_contract.
  - vm_compute; reflexivity.
Defined.

Lemma fallback_unconditional_witness :
  let s := @State (bentoml package_layout) ∅ [] [] in
  let s1 := @State (bentoml package_layout) ∅ []
              [EImport "bento_service" "IrisClassifier" (inl no_bento_service)] in
  plain_imports s = (s1, inl no_bento_service) ∧
  import_block s = package_imports s1 ∧
  ∃ out,
    (log s1 ++ [EImport "bentoml_deploy.bento_service" "IrisClassifier" out])
      `prefix_of` log (import_block s).1.
Proof.
  intros s s1. split; [vm_compute; reflexivity|].
  apply (fallback_unconditional (bentoml package_layout) s s1 no_bento_service).
  vm_compute; reflexivity.
Defined.

(** The class is importable from the plain path but the model is not: the
    class bound by the first attempt ([VObj 7]) is replaced by the packaged
    one. *)
Lemma imports_resolved_as_pair_witness :
  let s := @State (bentoml mixed_layout) ∅ [] [] in
  let s' := (import_block s).1 in
  globals s' !! "IrisClassifier" = Some (VObj 1) ∧
  ((plain_imports s = (s', inr tt) ∧
    resolved_from "bento_service" "train" (ext s) s') ∨
   (∃ s1 e, plain_imports s = (s1, inl e) ∧
    resolved_from "bentoml_deploy.bento_service" "bentoml_deploy.train" (ext s1) s')).
Proof.
  intros s s'. split; [vm_compute; reflexivity|].
  apply (imports_resolved_as_pair (bentoml mixed_layout) s s').
  vm_compute; reflexivity.
Defined.

Lemma later_failures_propagate_witness :
  (run full_disk ∅ []).2 = inl disk_error ∧
  last (log (run full_disk ∅ []).1) = Some (EMethod (VObj 3) "save" [] (inl disk_error)).
Proof.
  destruct (later_failures_propagate full_disk ∅ []
              (run full_disk ∅ []).1 (run full_disk ∅ []).2
              (EMethod (VObj 3) "save" [] (inl disk_error)) disk_error)
    as [Hr Hlast].
  - vm_compute; reflexivity.
  - vm_compute. find_mem.
  - reflexivity.
  - reflexivity.
  - split; [exact Hr|exact Hlast].
Defined.

Lemma construct_pack_save_witness :
  ∃ imports cls inst model packed path,
    log (run (bentoml mixed_layout) ∅ []).1 = imports ++
      [ECall cls [] (inr inst);
       EMethod inst "pack" [VStr "model"; model] (inr packed);
       EMethod inst "save" [] (inr path)] ∧
    forallb is_import imports = true.
Proof.
  apply (construct_pack_save (bentoml mixed_layout) ∅ []).
  vm_compute; reflexivity.
Defined.

Lemma pack_model_slot_witness :
  ∃ model m,
    [VStr "model"; VObj 2] = [VStr "model"; model] ∧
    globals (run (bentoml package_layout) ∅ []).1 !! "clf" = Some model ∧
    EImport m "clf" (inr model) ∈ log (run (bentoml package_layout) ∅ []).1 ∧
    ∀ m' v', EImport m' "clf" (inr v') ∈ log (run (bentoml package_layout) ∅ []).1 →
      m' = m ∧ v' = model.
Proof.
  apply (pack_model_slot (bentoml package_layout) ∅ [] (VObj 3) _ (inr (VObj 3))).
  vm_compute. find_mem.
Defined.

Lemma saved_path_recorded_witness :
  ∃ inst path w0,
    last (log (run (bentoml plain_layout) ∅ []).1) =
      Some (EMethod inst "save" [] (inr path)) ∧
    call_method (bentoml plain_layout) inst "save" [] w0 =
      (ext (run (bentoml plain_layout) ∅ []).1, inr path) ∧
    globals (run (bentoml plain_layout) ∅ []).1 !! "saved_path" = Some path.
Proof.
  apply (saved_path_recorded (bentoml plain_layout) ∅ []).
  vm_compute; reflexivity.
Defined.

Lemma save_takes_no_arguments_witness :
  @nil value = [] ∧
  ∃ w0, call_method (bentoml plain_layout) (VObj 3) "save" [] w0 =
          (ext (run (bentoml plain_layout) ∅ []).1, inr (VStr bundle)).
Proof.
  apply (save_takes_no_arguments (bentoml plain_layout) ∅ []
           (VObj 3) [] (inr (VStr bundle))).
  vm_compute. find_mem.
Defined.

(** The empty string returned by the hollow [save] is bound like any other
    value, and the run ends normally. *)
Lemma nothing_after_save_witness :
  (run hollow ∅ []).2 = inr tt ∧
  last (log (run hollow ∅ []).1) = Some (EMethod (VObj 3) "save" [] (inr (VStr ""))) ∧
  globals (run hollow ∅ []).1 !! "saved_path" = Some (VStr "") ∧
  ∃ w0, call_method hollow (VObj 3) "save" [] w0 =
          (ext (run hollow ∅ []).1, inr (VStr "")).
Proof.
  apply (nothing_after_save hollow ∅ [] (VObj 3) [] (VStr "")).
  vm_compute. find_mem.
Defined.

Lemma constructs_imported_class_witness :
  @nil value = [] ∧
  last_import "IrisClassifier" (log (run (bentoml mixed_layout) ∅ []).1) =
    Some (VObj 1).
Proof.
  apply (constructs_imported_class (bentoml mixed_layout) ∅ []
           (VObj 1) [] (inr (VObj 3))).
  vm_compute. find_mem.
Defined.


Lemma other_globals_untouched_witness :
  globals (run (bentoml plain_layout) {["__name__" := VStr "__main__"]} []).1
    !! "__name__" = Some (VStr "__main__").
Proof.
  rewrite (other_globals_untouched (bentoml plain_layout)
             {["__name__" := VStr "__main__"]} [] "__name__").
  - reflexivity.
  - apply (bool_decide_unpack _). vm_compute. exact I.
Defined.

Lemma saved_path_unbound_on_failure_witness :
  globals (run full_disk ∅ []).1 !! "saved_path" = None.
Proof.
  rewrite (saved_path_unbound_on_failure full_disk ∅ [] disk_error).
  - reflexivity.
  - vm_compute; reflexivity.
Defined.

Lemma failure_comes_from_last_operation_witness :
  ∃ ev, last (log (run picky ∅ []).1) = Some ev ∧ raised ev = Some bad_model.
Proof.
  apply (failure_comes_from_last_operation picky ∅ [] bad_model).
  vm_compute; reflexivity.
Defined.

Lemma methods_on_constructed_instance_witness :
  ("pack" = "pack" ∨ "pack" = "save") ∧
  ∃ cls, ECall cls [] (inr (VObj 3)) ∈ log (run picky ∅ []).1.
Proof.
  apply (methods_on_constructed_instance picky ∅ []
           (VObj 3) "pack" [VStr "model"; VObj 2] (inl bad_model)).
  vm_compute. find_mem.
Defined.

